(** * Frustum side planes (isotope, test_files/frustum_math.py)

    A shallow embedding of [from_axis_angle], [mul_quat_vec] and
    [find_planes].  The vector arithmetic of numpy is written once over a
    scalar interface and used twice: over the real numbers [R], where the
    geometric properties are proved exactly, and over IEEE binary64
    (primitive floats), where concrete runs of the basis builder are
    evaluated as numpy would compute them. *)

From Stdlib Require Import Reals Lra Lia Psatz List String.
From Stdlib Require Import Floats.
Set Warnings "-notation-for-abbreviation,-inexact-float".
Import ListNotations.

(** ** Scalars and numpy-style 3-vectors *)

Class Scalar (K : Type) := {
  sadd : K -> K -> K;
  ssub : K -> K -> K;
  smul : K -> K -> K;
  sdiv : K -> K -> K;
  ssqrt : K -> K
}.

Record vec3 (K : Type) := mkVec { vx : K; vy : K; vz : K }.
Arguments mkVec {K} _ _ _.
Arguments vx {K} _.
Arguments vy {K} _.
Arguments vz {K} _.

Section Vectors.
Context {K : Type} `{Scalar K}.

(** [a + b] on arrays of shape (3,). *)
Definition vadd (a b : vec3 K) : vec3 K :=
  mkVec (sadd (vx a) (vx b)) (sadd (vy a) (vy b)) (sadd (vz a) (vz b)).

(** [a * s] for an array [a] and a scalar [s]. *)
Definition vmul (a : vec3 K) (s : K) : vec3 K :=
  mkVec (smul (vx a) s) (smul (vy a) s) (smul (vz a) s).

(** [a / s] (and [a /= s]) for an array [a] and a scalar [s]. *)
Definition vdiv (a : vec3 K) (s : K) : vec3 K :=
  mkVec (sdiv (vx a) s) (sdiv (vy a) s) (sdiv (vz a) s).

(** [np.dot(a, b)]. *)
Definition dot (a b : vec3 K) : K :=
  sadd (sadd (smul (vx a) (vx b)) (smul (vy a) (vy b))) (smul (vz a) (vz b)).

(** [np.cross(a, b)]. *)
Definition cross (a b : vec3 K) : vec3 K :=
  mkVec (ssub (smul (vy a) (vz b)) (smul (vz a) (vy b)))
        (ssub (smul (vz a) (vx b)) (smul (vx a) (vz b)))
        (ssub (smul (vx a) (vy b)) (smul (vy a) (vx b))).

(** [np.linalg.norm(a)] for a vector: [sqrt(dot(a, a))]. *)
Definition norm (a : vec3 K) : K := ssqrt (dot a a).

(** [a / np.linalg.norm(a)]. *)
Definition normalize (a : vec3 K) : vec3 K := vdiv a (norm a).

(** The camera basis of [find_planes], lines 28-32. *)
Record basis := mkBasis {
  b_position : vec3 K;
  b_front : vec3 K;
  b_up : vec3 K;
  b_right : vec3 K
}.

(** Lines 28-32: [position = eye], [front = target / norm(target)],
    [up_norm = up / norm(up)], [right = cross(front, up_norm)],
    [right /= norm(right)]. *)
Definition build_basis (eye target up : vec3 K) : basis :=
  let front := normalize target in
  let up_norm := normalize up in
  let right := normalize (cross front up_norm) in
  mkBasis eye front up_norm right.

End Vectors.
Arguments basis K : clear implicits.

(** ** Instances: real numbers and IEEE binary64 *)

#[global] Instance R_scalar : Scalar R := {
  sadd := Rplus; ssub := Rminus; smul := Rmult; sdiv := Rdiv; ssqrt := R_sqrt.sqrt
}.

#[global] Instance float_scalar : Scalar float := {
  sadd := PrimFloat.add; ssub := PrimFloat.sub; smul := PrimFloat.mul;
  sdiv := PrimFloat.div; ssqrt := PrimFloat.sqrt
}.

(** ** The binary64 run of the basis builder *)
Module F64.
Open Scope float_scope.

Definition fvec (x y z : float) : vec3 float := mkVec x y z.

(** [abs(x - y) < tol], the tolerance comparison of a test. *)
Definition close (tol x y : float) : bool := PrimFloat.abs (x - y) <? tol.

Definition vclose (tol : float) (a b : vec3 float) : bool :=
  close tol (vx a) (vx b) && close tol (vy a) (vy b) && close tol (vz a) (vz b).

Definition all_nan (a : vec3 float) : bool :=
  is_nan (vx a) && is_nan (vy a) && is_nan (vz a).

(** The arguments of the [__main__] block: eye [(10,10,10)],
    target [(-0.57735026,-0.57735026,-0.57735026)], up [(0,1,0)]. *)
Definition main_eye := fvec 10 10 10.
Definition main_target := fvec (-0.57735026) (-0.57735026) (-0.57735026).
Definition main_up := fvec 0 1 0.

Definition main_basis : basis float := build_basis main_eye main_target main_up.

(** The expected basis of the spec's first scenario, to five decimals. *)
Definition expected_front := fvec (-0.57735) (-0.57735) (-0.57735).
Definition expected_up := fvec 0 1 0.
Definition expected_right := fvec 0.70711 0 (-0.70711).

(** Agreement to five decimals: [abs(x - y) < 5e-6]. *)
Definition tol5 : float := 5e-6.

Definition zero_vec := fvec 0 0 0.

End F64.

(** ** The real-number model of the quaternion primitive and of [find_planes] *)
Module Frustum.
Open Scope R_scope.

Notation vec := (vec3 R).

Definition vzero : vec := mkVec 0 0 0.

(** A quaternion as the list [[x, y, z, w]] returned by [from_axis_angle]. *)
Record quat := mkQuat { qx : R; qy : R; qz : R; qw : R }.

(** Lines 7-11. *)
Definition from_axis_angle (axis : vec) (angle : R) : quat :=
  let s := sin (angle / 2) in
  let c := cos (angle / 2) in
  let scalar := c in
  let vector := vmul axis s in
  mkQuat (vx vector) (vy vector) (vz vector) scalar.

(** The squared norm of a quaternion, [x^2 + y^2 + z^2 + w^2], its vector
    part, and its conjugate. *)
Definition qnorm2 (q : quat) : R :=
  qx q * qx q + qy q * qy q + qz q * qz q + qw q * qw q.

Definition qvec (q : quat) : vec3 R := mkVec (qx q) (qy q) (qz q).

Definition conj (q : quat) : quat := mkQuat (- qx q) (- qy q) (- qz q) (qw q).

Definition qneg (q : quat) : quat := mkQuat (- qx q) (- qy q) (- qz q) (- qw q).

(** Rodrigues' rotation of [x] about the axis [r], given the cosine [c]
    and sine [s] of the angle. *)
Definition rodrigues_form (r : vec3 R) (c s : R) (x : vec3 R) : vec3 R :=
  vadd (vadd (vmul x c) (vmul (cross r x) s)) (vmul r ((1 - c) * dot r x)).

(** Lines 13-16. *)
Definition mul_quat_vec (q : quat) (v : vec) : vec :=
  let vec := mkVec (qx q) (qy q) (qz q) in
  let tmp := vadd (cross vec v) (vmul v (qw q)) in
  vadd (vmul (cross vec tmp) 2) v.

(** [np.deg2rad]. *)
Definition deg2rad (x : R) : R := x * (PI / 180).

(** Lines 64-68: the top normal, by a rotation of the top edge direction
    about [right] by a further [-pi/2]. *)
Definition top_direction_of (front right : vec) (half_fov_rad : R) : vec :=
  mul_quat_vec (from_axis_angle right half_fov_rad) front.

Definition top_normal_of (front right : vec) (half_fov_rad : R) : vec :=
  let top_direction := top_direction_of front right half_fov_rad in
  let second_rotation := from_axis_angle right (- PI / 2) in
  normalize (mul_quat_vec second_rotation top_direction).

(** Lines 78-82: the bottom normal, rotating by [+pi/2]. *)
Definition bottom_direction_of (front right : vec) (half_fov_rad : R) : vec :=
  mul_quat_vec (from_axis_angle right (- half_fov_rad)) front.

Definition bottom_normal_of (front right : vec) (half_fov_rad : R) : vec :=
  let bottom_direction := bottom_direction_of front right half_fov_rad in
  let second_rotation := from_axis_angle right (PI / 2) in
  normalize (mul_quat_vec second_rotation bottom_direction).

(** Lines 85-96: the left and right normals, [cross(edge_direction, up_norm)]
    where the edge direction is [front] rotated about [up_norm] by the
    given angle ([half_fov_h_rad] for left, [-half_fov_h_rad] for right). *)
Definition side_direction_of (front up_norm : vec) (angle : R) : vec :=
  mul_quat_vec (from_axis_angle up_norm angle) front.

Definition side_normal_of (front up_norm : vec) (angle : R) : vec :=
  normalize (cross (side_direction_of front up_norm angle) up_norm).

(** The local variables of [find_planes] that carry geometry. *)
Record frustum_locals := mkLocals {
  position : vec;
  front : vec;
  up_norm : vec;
  right : vec;
  half_fov_rad : R;
  half_fov_h_rad : R;
  top_normal : vec;
  bottom_normal : vec;
  left_normal : vec;
  right_normal : vec;
  top_d : R;
  bottom_d : R
}.

(** Lines 28-118 without the console and plotting calls. [znear] and
    [zfar] are parameters, as in the source. *)
Definition find_planes_locals (eye target up : vec) (aspect fovy znear zfar : R)
  : frustum_locals :=
  let b := build_basis eye target up in
  let position := b_position b in
  let front := b_front b in
  let up_norm := b_up b in
  let right := b_right b in
  let half_fov_rad := deg2rad fovy * (1 / 2) in
  let half_fov_h_rad := atan (tan half_fov_rad * aspect) in
  let top_normal := top_normal_of front right half_fov_rad in
  let bottom_normal := bottom_normal_of front right half_fov_rad in
  let left_normal := side_normal_of front up_norm half_fov_h_rad in
  let right_normal := side_normal_of front up_norm (- half_fov_h_rad) in
  let top_d := dot top_normal position in
  let bottom_d := dot bottom_normal position in
  mkLocals position front up_norm right half_fov_rad half_fov_h_rad
    top_normal bottom_normal left_normal right_normal top_d bottom_d.

(** The observable effects of [find_planes]: console output and the
    matplotlib calls that carry geometry. A wireframe is recorded by the
    plane [(normal, d)] it draws over the fixed 50x50 grid of lines 105-107.
    Figure creation, axis labels and the legend carry no data and are not
    recorded. *)
Inductive event :=
| EvPrintVec (label : string) (v : vec)
| EvPrintNum (label : string) (x : R)
| EvScatter (p : vec)
| EvQuiver (p v : vec) (label : string)
| EvWireframe (n : vec) (d : R)
| EvShow.

(** Lines 109-114 and 117-122: a plane is drawn only when its normal's
    z component exceeds [1e-6] in absolute value. *)
Definition wireframe (n : vec) (d : R) : list event :=
  if Rlt_dec (1 / 1000000) (Rabs (vz n)) then [EvWireframe n d] else [].

(** Python's [None], the value [find_planes] returns. *)
Inductive py_none := PyNone.

(** Lines 19-146: the event trace and the returned value. *)
Definition find_planes (eye target up : vec) (aspect fovy znear zfar : R)
  : list event * py_none :=
  let l := find_planes_locals eye target up aspect fovy znear zfar in
  ([EvPrintVec "Front:" (front l); EvPrintVec "Up:" (up_norm l);
    EvPrintVec "Right:" (right l);
    EvPrintNum "Half FOV rad" (half_fov_rad l);
    EvPrintNum "Half FOV H rad" (half_fov_h_rad l);
    EvScatter (position l);
    EvQuiver (position l) (front l) "Front";
    EvQuiver (position l) (up_norm l) "Up";
    EvQuiver (position l) (right l) "Right";
    EvQuiver (position l) (top_normal l) "Top Normal";
    EvPrintVec "Top Normal:" (top_normal l);
    EvPrintVec "Bottom Normal:" (bottom_normal l);
    EvPrintVec "Left Normal:" (left_normal l);
    EvPrintVec "Right Normal:" (right_normal l)]
   ++ wireframe (top_normal l) (top_d l)
   ++ wireframe (bottom_normal l) (bottom_d l)
   ++ [EvShow], PyNone).

(** An orthonormal front/up/right triple. *)
Definition orthonormal (f u r : vec) : Prop :=
  dot f f = 1 /\ dot u u = 1 /\ dot r r = 1 /\
  dot f u = 0 /\ dot f r = 0 /\ dot u r = 0.

(** The input constraints of the spec: non-zero, non-parallel view
    direction and world up, positive aspect, field of view in (0, 180). *)
Definition valid_input (target up : vec) (aspect fovy : R) : Prop :=
  target <> vzero /\ up <> vzero /\ cross target up <> vzero /\
  0 < aspect /\ 0 < fovy < 180.

Definition wireframes (t : list event) : list event :=
  filter (fun e => match e with EvWireframe _ _ => true | _ => false end) t.

(** The arguments of the [__main__] block. *)
Definition main_eye : vec := mkVec 10 10 10.
Definition main_target : vec :=
  mkVec (-0.57735026) (-0.57735026) (-0.57735026).
Definition main_up : vec := mkVec 0 1 0.
Definition main_aspect : R := 1.8695229.

(** Unit vectors used as sample inputs. *)
Definition ex : vec := mkVec 1 0 0.
Definition ey : vec := mkVec 0 1 0.
Definition ez : vec := mkVec 0 0 1.
Definition back : vec := mkVec 0 0 (-1).

End Frustum.

(** * Proofs about the binary64 run *)
Module F64Facts.
Import F64.
Open Scope float_scope.

Lemma is_nan_Prim2SF (x : float) : is_nan x = true <-> Prim2SF x = S754_nan.
Proof.
  split.
  - intros Hx. unfold Prim2SF. rewrite Hx. reflexivity.
  - intros Hx. unfold is_nan. rewrite FloatAxioms.eqb_spec, Hx. reflexivity.
Qed.

(** NaN is absorbing for the operations the basis builder uses. *)
Ltac nan_by spec :=
  intros Hx; apply is_nan_Prim2SF; rewrite spec;
  apply is_nan_Prim2SF in Hx; rewrite Hx;
  try reflexivity;
  match goal with |- context [Prim2SF ?y] => destruct (Prim2SF y) end;
  reflexivity.

Lemma mul_nan_l x y : is_nan x = true -> is_nan (x * y) = true.
Proof. nan_by mul_spec. Qed.

Lemma sub_nan_l x y : is_nan x = true -> is_nan (x - y) = true.
Proof. nan_by sub_spec. Qed.

Lemma add_nan_l x y : is_nan x = true -> is_nan (x + y) = true.
Proof. nan_by add_spec. Qed.

Lemma div_nan_l x y : is_nan x = true -> is_nan (x / y) = true.
Proof. nan_by div_spec. Qed.

Lemma sqrt_nan x : is_nan x = true -> is_nan (PrimFloat.sqrt x) = true.
Proof. nan_by sqrt_spec. Qed.

Lemma cross_nan_l (a b : vec3 float) : all_nan a = true -> all_nan (cross a b) = true.
Proof.
  destruct a as [a1 a2 a3]. unfold all_nan; cbn.
  intros H. apply andb_prop in H as [H H3]. apply andb_prop in H as [H1 H2].
  rewrite (sub_nan_l _ _ (mul_nan_l _ _ H2)), (sub_nan_l _ _ (mul_nan_l _ _ H3)),
    (sub_nan_l _ _ (mul_nan_l _ _ H1)).
  reflexivity.
Qed.

Lemma normalize_nan (a : vec3 float) : all_nan a = true -> all_nan (normalize a) = true.
Proof.
  destruct a as [a1 a2 a3]. unfold all_nan; cbn.
  intros H. apply andb_prop in H as [H H3]. apply andb_prop in H as [H1 H2].
  rewrite (div_nan_l _ _ H1), (div_nan_l _ _ H2), (div_nan_l _ _ H3).
  reflexivity.
Qed.

(** The normalisation of the zero vector is [0 / 0], NaN in every component. *)
Lemma normalize_zero_nan : all_nan (normalize zero_vec) = true.
Proof. vm_compute. reflexivity. Qed.

(** C9: the spec's first scenario, run in binary64: [front], [up] and
    [right] agree with the expected vectors to five decimals. *)
Theorem main_basis_scenario :
  vclose tol5 (b_front main_basis) expected_front = true /\
  vclose tol5 (b_up main_basis) expected_up = true /\
  vclose tol5 (b_right main_basis) expected_right = true.
Proof. vm_compute. repeat split. Qed.

(** C2 (counterexample): with [view_direction = (0,0,0)] and the other
    arguments of [__main__], nothing fails: [front] and [right] come out
    NaN in every component. *)
Lemma zero_view_direction_nan :
  all_nan (b_front (build_basis main_eye zero_vec main_up)) = true /\
  all_nan (b_right (build_basis main_eye zero_vec main_up)) = true.
Proof. vm_compute. split; reflexivity. Qed.

End F64Facts.

(** * Proofs about the real-number model *)
Module FrustumFacts.
Import Frustum.
Open Scope R_scope.

Ltac vunfold :=
  unfold mul_quat_vec, from_axis_angle, normalize, norm, vdiv, vadd, vmul,
    dot, cross in *;
  cbn [sadd ssub smul sdiv ssqrt R_scalar vx vy vz qx qy qz qw] in *.

(** [mul_quat_vec] changes the squared length by [4 (|q|^2 - 1) |u x v|^2],
    a ring identity. *)
Lemma mul_quat_vec_dot (q : quat) (v : vec) :
  dot (mul_quat_vec q v) (mul_quat_vec q v) - dot v v =
  4 * (qnorm2 q - 1) * dot (cross (qvec q) v) (cross (qvec q) v).
Proof. destruct q, v. unfold qnorm2, qvec. vunfold. ring. Qed.

(** Rotating back with the conjugate quaternion [conj q] leaves the error
    [4 (|q|^2 - 1) (|u|^2 v - (u.v) u)], also a ring identity. *)
(** The expanded form [v (1 - 2|u|^2) + 2 (u.v) u + 2 w (u x v)]. *)
Lemma mul_quat_vec_expand (q : quat) (v : vec) :
  mul_quat_vec q v =
  vadd (vadd (vmul v (1 - 2 * dot (qvec q) (qvec q)))
             (vmul (qvec q) (2 * dot (qvec q) v)))
       (vmul (cross (qvec q) v) (2 * qw q)).
Proof. destruct q, v. unfold qvec. vunfold. f_equal; ring. Qed.

Lemma mul_quat_vec_conj (q : quat) (v : vec) :
  mul_quat_vec (conj q) (mul_quat_vec q v) =
  vadd v (vmul (vadd (vmul v (dot (qvec q) (qvec q)))
                     (vmul (qvec q) (- dot (qvec q) v)))
               (4 * (qnorm2 q - 1))).
Proof.
  rewrite (mul_quat_vec_expand (conj q)), (mul_quat_vec_expand q).
  destruct q as [a b c w], v as [x y z]. unfold conj, qnorm2, qvec.
  unfold vadd, vmul, dot, cross.
  cbn [sadd ssub smul R_scalar vx vy vz qx qy qz qw].
  f_equal; ring.
Qed.

Lemma from_axis_angle_norm2 (a : vec) (theta : R) :
  qnorm2 (from_axis_angle a theta) =
  dot a a * (sin (theta / 2))² + (cos (theta / 2))².
Proof. destruct a. unfold qnorm2, Rsqr. vunfold. ring. Qed.

Lemma from_axis_angle_neg (a : vec) (theta : R) :
  from_axis_angle a (- theta) = conj (from_axis_angle a theta).
Proof.
  destruct a. unfold conj, from_axis_angle, vmul; cbn.
  replace (- theta / 2) with (- (theta / 2)) by field.
  rewrite sin_neg, cos_neg. f_equal; ring.
Qed.

(** The unrolled form of [mul_quat_vec (from_axis_angle r phi) x]. *)
Lemma mul_quat_vec_axis_angle (r x : vec) (phi : R) :
  let s := sin (phi / 2) in
  let c := cos (phi / 2) in
  mul_quat_vec (from_axis_angle r phi) x =
  vadd (vadd (vmul x (1 - 2 * s * s * dot r r)) (vmul (cross r x) (2 * s * c)))
       (vmul r (2 * s * s * dot r x)).
Proof. destruct r, x. vunfold. f_equal; ring. Qed.

(** Rodrigues' formula, for a unit axis. *)
Lemma rodrigues (r x : vec) (phi : R) :
  dot r r = 1 ->
  mul_quat_vec (from_axis_angle r phi) x =
  vadd (vadd (vmul x (cos phi)) (vmul (cross r x) (sin phi)))
       (vmul r ((1 - cos phi) * dot r x)).
Proof.
  intros H. rewrite mul_quat_vec_axis_angle. cbv zeta. rewrite H.
  assert (Hs : sin phi = 2 * sin (phi / 2) * cos (phi / 2)).
  { rewrite <- sin_2a. f_equal. field. }
  assert (Hc : cos phi = 1 - 2 * sin (phi / 2) * sin (phi / 2)).
  { rewrite <- cos_2a_sin. f_equal. field. }
  rewrite Hs, Hc.
  destruct r, x. vunfold. f_equal; ring.
Qed.

(** ** Rotations by [from_axis_angle] about a unit axis *)

Lemma qnorm2_axis_angle (a : vec) (theta : R) :
  dot a a = 1 -> qnorm2 (from_axis_angle a theta) = 1.
Proof.
  intros Ha. rewrite from_axis_angle_norm2, Ha, Rmult_1_l. apply sin2_cos2.
Qed.

(** C10: for a unit axis [a], the quaternion [from_axis_angle a theta]
    has [x^2 + y^2 + z^2 + w^2 = 1]. *)
Theorem from_axis_angle_unit (a : vec) (theta : R) :
  dot a a = 1 ->
  let q := from_axis_angle a theta in
  qx q * qx q + qy q * qy q + qz q * qz q + qw q * qw q = 1.
Proof. intros Ha q. exact (qnorm2_axis_angle a theta Ha). Qed.

Lemma rotate_dot (a v : vec) (theta : R) :
  dot a a = 1 ->
  dot (mul_quat_vec (from_axis_angle a theta) v)
      (mul_quat_vec (from_axis_angle a theta) v) = dot v v.
Proof.
  intros Ha.
  pose proof (mul_quat_vec_dot (from_axis_angle a theta) v) as E.
  rewrite (qnorm2_axis_angle a theta Ha) in E. lra.
Qed.

(** C3: rotation about a unit axis preserves Euclidean length. *)
Theorem rotate_preserves_length (a v : vec) (theta : R) :
  dot a a = 1 ->
  norm (mul_quat_vec (from_axis_angle a theta) v) = norm v.
Proof.
  intros Ha. unfold norm. rewrite (rotate_dot a v theta Ha). reflexivity.
Qed.

(** C4: rotating by [-theta] undoes rotating by [theta]. *)
Theorem rotate_inverse (a v : vec) (theta : R) :
  dot a a = 1 ->
  mul_quat_vec (from_axis_angle a (- theta))
    (mul_quat_vec (from_axis_angle a theta) v) = v.
Proof.
  intros Ha.
  rewrite from_axis_angle_neg, mul_quat_vec_conj,
    (qnorm2_axis_angle a theta Ha).
  destruct v. vunfold. f_equal; ring.
Qed.

Lemma dot_rodrigues_axis (r x : vec) (c s k : R) :
  dot r (vadd (vadd (vmul x c) (vmul (cross r x) s)) (vmul r k)) =
  c * dot r x + k * dot r r.
Proof. destruct r, x. vunfold. ring. Qed.

(** The component along the axis is left unchanged. *)
Lemma rotate_axis_component (r x : vec) (phi : R) :
  dot r r = 1 ->
  dot r (mul_quat_vec (from_axis_angle r phi) x) = dot r x.
Proof.
  intros H. rewrite (rodrigues r x phi H), dot_rodrigues_axis, H. ring.
Qed.

Lemma rotate_minus_half_pi (r y : vec) :
  dot r r = 1 -> dot r y = 0 ->
  mul_quat_vec (from_axis_angle r (- PI / 2)) y = cross y r.
Proof.
  intros H Hy. rewrite (rodrigues r y _ H), Hy.
  replace (- PI / 2) with (- (PI / 2)) by field.
  rewrite cos_neg, sin_neg, cos_PI2, sin_PI2.
  destruct r, y. vunfold. f_equal; ring.
Qed.

Lemma rotate_half_pi (r y : vec) :
  dot r r = 1 -> dot r y = 0 ->
  mul_quat_vec (from_axis_angle r (PI / 2)) y = cross r y.
Proof.
  intros H Hy. rewrite (rodrigues r y _ H), Hy, cos_PI2, sin_PI2.
  destruct r, y. vunfold. f_equal; ring.
Qed.

(** ** Further properties of the rotation primitive *)

Lemma vadd_vmul_zero (a b : vec) : vadd a (vmul b 0) = a.
Proof. destruct a, b. vunfold. f_equal; ring. Qed.

Lemma dot_vadd_self (a b : vec) :
  dot (vadd a b) (vadd a b) = dot a a + 2 * dot a b + dot b b.
Proof. destruct a, b. vunfold. ring. Qed.

Lemma mul_quat_vec_qneg (q : quat) (v : vec) :
  mul_quat_vec (qneg q) v = mul_quat_vec q v.
Proof. destruct q, v. unfold qneg. vunfold. f_equal; ring. Qed.

Lemma mul_quat_vec_add (q : quat) (u v : vec) :
  mul_quat_vec q (vadd u v) = vadd (mul_quat_vec q u) (mul_quat_vec q v).
Proof. destruct q, u, v. vunfold. f_equal; ring. Qed.

(** Composing two Rodrigues rotations about the same axis; the error term
    vanishes for a unit axis. *)
Lemma rodrigues_form_compose (r x : vec) (c1 s1 c2 s2 : R) :
  rodrigues_form r c2 s2 (rodrigues_form r c1 s1 x) =
  vadd (rodrigues_form r (c1 * c2 - s1 * s2) (s1 * c2 + c1 * s2) x)
       (vmul (vadd (vmul x (- (s1 * s2))) (vmul r ((1 - c1) * (1 - c2) * dot r x)))
             (dot r r - 1)).
Proof. destruct r, x. unfold rodrigues_form. vunfold. f_equal; ring. Qed.

(** X1: a rotation by angle 0 leaves every vector unchanged, whatever the
    axis. *)
Theorem rotate_zero_angle (a v : vec) :
  mul_quat_vec (from_axis_angle a 0) v = v.
Proof.
  unfold from_axis_angle. replace (0 / 2) with 0 by field.
  rewrite sin_0, cos_0. destruct a, v. vunfold. f_equal; ring.
Qed.

(** X2: the rotation axis itself is left unchanged, whatever its length
    and the angle. *)
Theorem rotate_fixes_axis (a : vec) (theta : R) :
  mul_quat_vec (from_axis_angle a theta) a = a.
Proof. destruct a. vunfold. f_equal; ring. Qed.

(** X3: angles are taken modulo [2 pi]: the quaternion for [theta + 2 pi]
    is the negation of the one for [theta], and both rotate every vector
    the same way. *)
Theorem rotate_angle_period (a v : vec) (theta : R) :
  from_axis_angle a (theta + 2 * PI) = qneg (from_axis_angle a theta) /\
  mul_quat_vec (from_axis_angle a (theta + 2 * PI)) v =
    mul_quat_vec (from_axis_angle a theta) v.
Proof.
  assert (E : from_axis_angle a (theta + 2 * PI) = qneg (from_axis_angle a theta)).
  { unfold from_axis_angle, qneg, vmul. cbn.
    replace ((theta + 2 * PI) / 2) with (theta / 2 + PI) by field.
    rewrite neg_sin, neg_cos. f_equal; ring. }
  split; [exact E |]. rewrite E. apply mul_quat_vec_qneg.
Qed.

(** X4: [mul_quat_vec q] is linear, for any [q]. *)
Theorem mul_quat_vec_linear (q : quat) (u v : vec) (k : R) :
  mul_quat_vec q (vadd u v) = vadd (mul_quat_vec q u) (mul_quat_vec q v) /\
  mul_quat_vec q (vmul v k) = vmul (mul_quat_vec q v) k.
Proof.
  split; [apply mul_quat_vec_add |].
  destruct q, v. vunfold. f_equal; ring.
Qed.

(** X5: for any quaternion, [mul_quat_vec] changes the squared length of
    [v] by exactly [4 (x^2+y^2+z^2+w^2 - 1) |(x,y,z) x v|^2]: a non-unit
    quaternion scales vectors. *)
Theorem mul_quat_vec_length_change (q : quat) (v : vec) :
  dot (mul_quat_vec q v) (mul_quat_vec q v) =
  dot v v + 4 * (qx q * qx q + qy q * qy q + qz q * qz q + qw q * qw q - 1) *
            dot (cross (mkVec (qx q) (qy q) (qz q)) v)
                (cross (mkVec (qx q) (qy q) (qz q)) v).
Proof. pose proof (mul_quat_vec_dot q v) as E. unfold qnorm2, qvec in E. lra. Qed.

(** X6: for a unit axis, [mul_quat_vec (from_axis_angle r phi)] is
    Rodrigues' rotation [x cos phi + (r x x) sin phi + r (r.x)(1 - cos phi)]. *)
Theorem rotate_is_rodrigues (r x : vec) (phi : R) :
  dot r r = 1 ->
  mul_quat_vec (from_axis_angle r phi) x = rodrigues_form r (cos phi) (sin phi) x.
Proof.
  intros H. rewrite (rodrigues r x phi H). unfold rodrigues_form.
  destruct r, x. vunfold. f_equal; ring.
Qed.

(** X7: rotations about the same unit axis compose by adding angles. *)
Theorem rotate_compose (r v : vec) (alpha beta : R) :
  dot r r = 1 ->
  mul_quat_vec (from_axis_angle r beta) (mul_quat_vec (from_axis_angle r alpha) v) =
  mul_quat_vec (from_axis_angle r (alpha + beta)) v.
Proof.
  intros H.
  assert (Hf : forall phi y, mul_quat_vec (from_axis_angle r phi) y =
                             rodrigues_form r (cos phi) (sin phi) y).
  { intros phi y. rewrite (rodrigues r y phi H). unfold rodrigues_form.
    destruct r, y. vunfold. f_equal; ring. }
  rewrite !Hf, rodrigues_form_compose, H, Rminus_diag, vadd_vmul_zero,
    cos_plus, sin_plus.
  f_equal; ring.
Qed.

(** X8: rotation about a unit axis preserves dot products (so angles and
    orthogonality). *)
Theorem rotate_preserves_dot (r u v : vec) (phi : R) :
  dot r r = 1 ->
  dot (mul_quat_vec (from_axis_angle r phi) u) (mul_quat_vec (from_axis_angle r phi) v) =
  dot u v.
Proof.
  intros H.
  pose proof (rotate_dot r (vadd u v) phi H) as E.
  rewrite mul_quat_vec_add, !dot_vadd_self, !(rotate_dot r _ phi H) in E.
  lra.
Qed.

(** ** Normalisation *)

Lemma dot_vdiv (a b : vec) (k : R) : dot (vdiv a k) b = dot a b / k.
Proof. destruct a, b. vunfold. unfold Rdiv. ring. Qed.

Lemma dot_vdiv_self (a : vec) (k : R) :
  k <> 0 -> dot (vdiv a k) (vdiv a k) = dot a a / (k * k).
Proof. intros Hk. destruct a. vunfold. field. exact Hk. Qed.

Lemma cross_vdiv (a b : vec) (k l : R) :
  k <> 0 -> l <> 0 -> cross (vdiv a k) (vdiv b l) = vdiv (cross a b) (k * l).
Proof. intros Hk Hl. destruct a, b. vunfold. f_equal; field; auto. Qed.

Lemma dot_pos (v : vec) : v <> vzero -> 0 < dot v v.
Proof.
  intros Hv. destruct v as [a b c]. vunfold.
  destruct (Req_dec a 0), (Req_dec b 0), (Req_dec c 0); subst;
    try (exfalso; apply Hv; reflexivity); nra.
Qed.

Lemma norm_pos (v : vec) : 0 < dot v v -> 0 < norm v.
Proof. intros H. unfold norm. cbn [ssqrt R_scalar]. apply sqrt_lt_R0, H. Qed.

Lemma dot_normalize (v : vec) : 0 < dot v v -> dot (normalize v) (normalize v) = 1.
Proof.
  intros H. pose proof (norm_pos v H) as Hn. unfold normalize.
  rewrite dot_vdiv_self by lra. unfold norm. cbn [ssqrt R_scalar].
  rewrite sqrt_sqrt by lra. field. lra.
Qed.

Lemma norm_unit (v : vec) : dot v v = 1 -> norm v = 1.
Proof. intros H. unfold norm. rewrite H. apply sqrt_1. Qed.

Lemma dot_comm (a b : vec) : dot a b = dot b a.
Proof. destruct a, b. vunfold. ring. Qed.

Lemma dot_cross_l (a b : vec) : dot (cross a b) a = 0.
Proof. destruct a, b. vunfold. ring. Qed.

Lemma dot_cross_r (a b : vec) : dot (cross a b) b = 0.
Proof. destruct a, b. vunfold. ring. Qed.

(** Lagrange's identity. *)
Lemma dot_cross_self (a b : vec) :
  dot (cross a b) (cross a b) = dot a a * dot b b - dot a b * dot a b.
Proof. destruct a, b. vunfold. ring. Qed.

(** ** The four normals *)

Lemma top_normal_of_unit (f r : vec) (a : R) :
  dot r r = 1 -> dot f f = 1 ->
  dot (top_normal_of f r a) (top_normal_of f r a) = 1.
Proof.
  intros Hr Hf. unfold top_normal_of, top_direction_of. cbv zeta.
  apply dot_normalize. rewrite !(rotate_dot r _ _ Hr), Hf. lra.
Qed.

Lemma bottom_normal_of_unit (f r : vec) (a : R) :
  dot r r = 1 -> dot f f = 1 ->
  dot (bottom_normal_of f r a) (bottom_normal_of f r a) = 1.
Proof.
  intros Hr Hf. unfold bottom_normal_of, bottom_direction_of. cbv zeta.
  apply dot_normalize. rewrite !(rotate_dot r _ _ Hr), Hf. lra.
Qed.

Lemma side_normal_of_unit (f u : vec) (a : R) :
  dot u u = 1 -> dot f f = 1 -> 0 < dot (cross f u) (cross f u) ->
  dot (side_normal_of f u a) (side_normal_of f u a) = 1.
Proof.
  intros Hu Hf Hc. unfold side_normal_of, side_direction_of.
  apply dot_normalize.
  rewrite dot_cross_self, (rotate_dot u _ _ Hu).
  rewrite (dot_comm (mul_quat_vec (from_axis_angle u a) f) u).
  rewrite (rotate_axis_component u _ _ Hu).
  rewrite dot_cross_self in Hc. rewrite (dot_comm u f). exact Hc.
Qed.

(** ** The normals in the camera frame *)

Lemma normalize_unit_id (v : vec) : dot v v = 1 -> normalize v = v.
Proof.
  intros H. unfold normalize, norm. rewrite H. cbn [ssqrt R_scalar].
  rewrite sqrt_1. destruct v. unfold vdiv. cbn. f_equal; field.
Qed.

Lemma dot_cross_cross (a b c d : vec) :
  dot (cross a b) (cross c d) = dot a c * dot b d - dot a d * dot b c.
Proof. destruct a, b, c, d. vunfold. ring. Qed.

Lemma top_direction_frame (f r : vec) (a : R) :
  dot r r = 1 -> dot r f = 0 ->
  top_direction_of f r a = vadd (vmul f (cos a)) (vmul (cross r f) (sin a)).
Proof.
  intros Hr Hrf. unfold top_direction_of. rewrite (rodrigues r f a Hr), Hrf.
  destruct r, f. vunfold. f_equal; ring.
Qed.

Lemma bottom_direction_frame (f r : vec) (a : R) :
  dot r r = 1 -> dot r f = 0 ->
  bottom_direction_of f r a = vadd (vmul f (cos a)) (vmul (cross r f) (- sin a)).
Proof.
  intros Hr Hrf. unfold bottom_direction_of. rewrite (rodrigues r f _ Hr), Hrf.
  rewrite cos_neg, sin_neg. destruct r, f. vunfold. f_equal; ring.
Qed.

Lemma top_normal_cross (f r : vec) (a : R) :
  dot f f = 1 -> dot r r = 1 -> dot r f = 0 ->
  top_normal_of f r a = cross (top_direction_of f r a) r.
Proof.
  intros Hf Hr Hrf.
  assert (Ht : dot r (top_direction_of f r a) = 0).
  { unfold top_direction_of. rewrite (rotate_axis_component r f a Hr). exact Hrf. }
  unfold top_normal_of. cbv zeta. rewrite (rotate_minus_half_pi r _ Hr Ht).
  apply normalize_unit_id.
  rewrite dot_cross_self, (dot_comm (top_direction_of f r a) r), Ht, Hr.
  unfold top_direction_of. rewrite (rotate_dot r f a Hr), Hf. ring.
Qed.

Lemma bottom_normal_cross (f r : vec) (a : R) :
  dot f f = 1 -> dot r r = 1 -> dot r f = 0 ->
  bottom_normal_of f r a = cross r (bottom_direction_of f r a).
Proof.
  intros Hf Hr Hrf.
  assert (Hb : dot r (bottom_direction_of f r a) = 0).
  { unfold bottom_direction_of. rewrite (rotate_axis_component r f _ Hr). exact Hrf. }
  unfold bottom_normal_of. cbv zeta. rewrite (rotate_half_pi r _ Hr Hb).
  apply normalize_unit_id.
  rewrite dot_cross_self, Hb, Hr.
  unfold bottom_direction_of. rewrite (rotate_dot r f _ Hr), Hf. ring.
Qed.

Lemma frame_dot_front (f r : vec) (c s : R) :
  dot (vadd (vmul f c) (vmul (cross r f) s)) f = c * dot f f.
Proof. destruct f, r. vunfold. ring. Qed.

Lemma frame_top_front (f r : vec) (c s : R) :
  dot (cross (vadd (vmul f c) (vmul (cross r f) s)) r) f =
  s * (dot r r * dot f f - dot r f * dot r f).
Proof. destruct f, r. vunfold. ring. Qed.

Lemma frame_bottom_front (f r : vec) (c s : R) :
  dot (cross r (vadd (vmul f c) (vmul (cross r f) s))) f =
  - s * (dot r r * dot f f - dot r f * dot r f).
Proof. destruct f, r. vunfold. ring. Qed.

Lemma frame_top_up (f r : vec) (c s : R) :
  dot (cross (vadd (vmul f c) (vmul (cross r f) s)) r) (cross r f) =
  c * (dot r f * dot r f - dot f f * dot r r).
Proof. destruct f, r. vunfold. ring. Qed.

Lemma frame_bottom_up (f r : vec) (c s : R) :
  dot (cross r (vadd (vmul f c) (vmul (cross r f) s))) (cross r f) =
  c * (dot r r * dot f f - dot r f * dot r f).
Proof. destruct f, r. vunfold. ring. Qed.

Lemma side_edge_front (f u : vec) (c s k : R) :
  dot (cross (vadd (vadd (vmul f c) (vmul (cross u f) s)) (vmul u k)) u) f =
  s * dot (cross f u) (cross f u).
Proof. destruct f, u. vunfold. ring. Qed.

Lemma side_edge_dot_front (f u : vec) (c s k : R) :
  dot (vadd (vadd (vmul f c) (vmul (cross u f) s)) (vmul u k)) f =
  c * dot f f + k * dot u f.
Proof. destruct f, u. vunfold. ring. Qed.

Lemma side_cross_dot (f u : vec) (h : R) :
  dot u u = 1 ->
  dot (cross (side_direction_of f u h) u) (cross (side_direction_of f u h) u) =
  dot (cross f u) (cross f u).
Proof.
  intros Hu. unfold side_direction_of.
  rewrite !dot_cross_self, (rotate_dot u f h Hu),
    (dot_comm (mul_quat_vec (from_axis_angle u h) f) u),
    (rotate_axis_component u f h Hu), (dot_comm u f).
  reflexivity.
Qed.

Lemma norm_side_cross (f u : vec) (h : R) :
  dot u u = 1 ->
  norm (cross (side_direction_of f u h) u) = norm (cross f u).
Proof. intros Hu. unfold norm. rewrite (side_cross_dot f u h Hu). reflexivity. Qed.

Lemma side_normal_front (f u : vec) (h : R) :
  dot u u = 1 -> 0 < dot (cross f u) (cross f u) ->
  dot (side_normal_of f u h) f = sin h * norm (cross f u).
Proof.
  intros Hu Hc. unfold side_normal_of, normalize.
  rewrite dot_vdiv, (norm_side_cross f u h Hu).
  unfold side_direction_of. rewrite (rodrigues u f h Hu), side_edge_front.
  pose proof (norm_pos _ Hc) as Hn.
  unfold norm in *. cbn [ssqrt R_scalar] in *.
  rewrite <- (sqrt_sqrt (dot (cross f u) (cross f u))) at 1 by lra.
  field. lra.
Qed.

Lemma side_normal_right (f u : vec) (h : R) :
  dot u u = 1 -> 0 < dot (cross f u) (cross f u) ->
  dot (side_normal_of f u h) (normalize (cross f u)) = cos h.
Proof.
  intros Hu Hc. unfold side_normal_of, normalize at 1 2.
  rewrite dot_vdiv, (dot_comm _ (vdiv (cross f u) _)), dot_vdiv,
    (norm_side_cross f u h Hu).
  rewrite dot_comm, dot_cross_cross, Hu.
  unfold side_direction_of.
  rewrite (dot_comm (mul_quat_vec (from_axis_angle u h) f) u),
    (rotate_axis_component u f h Hu), (rodrigues u f h Hu), side_edge_dot_front.
  rewrite dot_cross_self, Hu in Hc.
  unfold norm. rewrite dot_cross_self, Hu. cbn [ssqrt R_scalar].
  rewrite (dot_comm u f).
  assert (Hm : R_sqrt.sqrt (dot f f * 1 - dot f u * dot f u) *
               R_sqrt.sqrt (dot f f * 1 - dot f u * dot f u) =
               dot f f * 1 - dot f u * dot f u) by (apply sqrt_sqrt; lra).
  unfold Rdiv. rewrite Rmult_assoc, <- Rinv_mult, Hm.
  field. lra.
Qed.

(** ** The basis of a valid input *)

Section ValidBasis.
Variables (eye target up : vec) (aspect fovy znear zfar : R).
Hypothesis Hvalid : valid_input target up aspect fovy.

Let l := find_planes_locals eye target up aspect fovy znear zfar.

Lemma front_unit : dot (front l) (front l) = 1.
Proof. destruct Hvalid as (Ht & _). apply dot_normalize, dot_pos, Ht. Qed.

Lemma up_unit : dot (up_norm l) (up_norm l) = 1.
Proof. destruct Hvalid as (_ & Hu & _). apply dot_normalize, dot_pos, Hu. Qed.

Lemma cross_front_up_pos : 0 < dot (cross (front l) (up_norm l)) (cross (front l) (up_norm l)).
Proof.
  destruct Hvalid as (Ht & Hu & Hc & _).
  pose proof (norm_pos _ (dot_pos _ Ht)) as Hnt.
  pose proof (norm_pos _ (dot_pos _ Hu)) as Hnu.
  cbn [l find_planes_locals build_basis b_front b_up b_right front up_norm].
  unfold normalize. rewrite cross_vdiv by lra.
  rewrite dot_vdiv_self by nra.
  apply Rdiv_lt_0_compat.
  - apply dot_pos, Hc.
  - apply Rmult_lt_0_compat; apply Rmult_lt_0_compat; assumption.
Qed.

Lemma right_unit : dot (right l) (right l) = 1.
Proof. apply dot_normalize, cross_front_up_pos. Qed.

Lemma right_orth_front : dot (right l) (front l) = 0.
Proof.
  cbn [l find_planes_locals build_basis b_front b_up b_right front right].
  unfold normalize at 1. rewrite dot_vdiv, dot_cross_l. unfold Rdiv. ring.
Qed.

Lemma right_orth_up : dot (right l) (up_norm l) = 0.
Proof.
  cbn [l find_planes_locals build_basis b_front b_up b_right up_norm right].
  unfold normalize at 1. rewrite dot_vdiv, dot_cross_r. unfold Rdiv. ring.
Qed.

Lemma top_normal_unit : dot (top_normal l) (top_normal l) = 1.
Proof. apply top_normal_of_unit; [apply right_unit | apply front_unit]. Qed.

Lemma bottom_normal_unit : dot (bottom_normal l) (bottom_normal l) = 1.
Proof. apply bottom_normal_of_unit; [apply right_unit | apply front_unit]. Qed.

Lemma left_normal_unit : dot (left_normal l) (left_normal l) = 1.
Proof.
  apply side_normal_of_unit;
    [apply up_unit | apply front_unit | apply cross_front_up_pos].
Qed.

Lemma right_normal_unit : dot (right_normal l) (right_normal l) = 1.
Proof.
  apply side_normal_of_unit;
    [apply up_unit | apply front_unit | apply cross_front_up_pos].
Qed.

Lemma half_fov_bounds_v :
  0 < half_fov_rad l < PI / 2 /\ 0 < half_fov_h_rad l < PI / 2.
Proof.
  destruct Hvalid as (_ & _ & _ & Ha & Hf1 & Hf2).
  assert (Hv : 0 < half_fov_rad l < PI / 2).
  { change (half_fov_rad l) with (deg2rad fovy * (1 / 2)). unfold deg2rad.
    pose proof PI_RGT_0. split; nra. }
  split; [exact Hv |].
  change (half_fov_h_rad l) with (atan (tan (half_fov_rad l) * aspect)).
  pose proof (tan_gt_0 _ (proj1 Hv) (proj2 Hv)). split.
  - rewrite <- atan_0. apply atan_increasing. nra.
  - apply atan_bound.
Qed.

Lemma top_normal_frame :
  top_normal l = cross (top_direction_of (front l) (right l) (half_fov_rad l)) (right l).
Proof.
  apply top_normal_cross; [apply front_unit | apply right_unit | apply right_orth_front].
Qed.

Lemma bottom_normal_frame :
  bottom_normal l = cross (right l) (bottom_direction_of (front l) (right l) (half_fov_rad l)).
Proof.
  apply bottom_normal_cross; [apply front_unit | apply right_unit | apply right_orth_front].
Qed.

Lemma top_direction_front :
  dot (top_direction_of (front l) (right l) (half_fov_rad l)) (front l) = cos (half_fov_rad l).
Proof.
  rewrite top_direction_frame by (apply right_unit || apply right_orth_front).
  rewrite frame_dot_front, front_unit. ring.
Qed.

Lemma bottom_direction_front :
  dot (bottom_direction_of (front l) (right l) (half_fov_rad l)) (front l) = cos (half_fov_rad l).
Proof.
  rewrite bottom_direction_frame by (apply right_unit || apply right_orth_front).
  rewrite frame_dot_front, front_unit. ring.
Qed.

Lemma top_bottom_normal_front :
  dot (top_normal l) (front l) = sin (half_fov_rad l) /\
  dot (bottom_normal l) (front l) = sin (half_fov_rad l).
Proof.
  pose proof front_unit as Hf. pose proof right_unit as Hr.
  pose proof right_orth_front as Hrf.
  rewrite top_normal_frame, bottom_normal_frame,
    top_direction_frame, bottom_direction_frame by assumption.
  rewrite frame_top_front, frame_bottom_front, Hf, Hr, Hrf. split; ring.
Qed.

Lemma top_bottom_normal_up :
  dot (top_normal l) (cross (right l) (front l)) = - cos (half_fov_rad l) /\
  dot (bottom_normal l) (cross (right l) (front l)) = cos (half_fov_rad l).
Proof.
  pose proof front_unit as Hf. pose proof right_unit as Hr.
  pose proof right_orth_front as Hrf.
  rewrite top_normal_frame, bottom_normal_frame,
    top_direction_frame, bottom_direction_frame by assumption.
  rewrite frame_top_up, frame_bottom_up, Hf, Hr, Hrf. split; ring.
Qed.

Lemma side_normals_front :
  dot (left_normal l) (front l) =
    sin (half_fov_h_rad l) * norm (cross (front l) (up_norm l)) /\
  dot (right_normal l) (front l) =
    - sin (half_fov_h_rad l) * norm (cross (front l) (up_norm l)).
Proof.
  split.
  - apply side_normal_front; [apply up_unit | apply cross_front_up_pos].
  - change (right_normal l) with
      (side_normal_of (front l) (up_norm l) (- half_fov_h_rad l)).
    rewrite side_normal_front by (apply up_unit || apply cross_front_up_pos).
    rewrite sin_neg. ring.
Qed.

Lemma side_normals_right :
  dot (left_normal l) (right l) = cos (half_fov_h_rad l) /\
  dot (right_normal l) (right l) = cos (half_fov_h_rad l).
Proof.
  split.
  - apply side_normal_right; [apply up_unit | apply cross_front_up_pos].
  - change (right_normal l) with
      (side_normal_of (front l) (up_norm l) (- half_fov_h_rad l)).
    change (right l) with (normalize (cross (front l) (up_norm l))).
    rewrite side_normal_right by (apply up_unit || apply cross_front_up_pos).
    apply cos_neg.
Qed.

End ValidBasis.

(** C7: for a valid input, [front], [up] and [right] and the four plane
    normals all have length 1 (exactly, in real arithmetic). *)
Theorem find_planes_unit_lengths (eye target up : vec) (aspect fovy znear zfar : R) :
  valid_input target up aspect fovy ->
  let l := find_planes_locals eye target up aspect fovy znear zfar in
  norm (front l) = 1 /\ norm (up_norm l) = 1 /\ norm (right l) = 1 /\
  norm (top_normal l) = 1 /\ norm (bottom_normal l) = 1 /\
  norm (left_normal l) = 1 /\ norm (right_normal l) = 1.
Proof.
  intros Hv l.
  repeat split; apply norm_unit;
    [ apply front_unit | apply up_unit | apply right_unit
    | apply top_normal_unit | apply bottom_normal_unit
    | apply left_normal_unit | apply right_normal_unit ]; exact Hv.
Qed.

(** C8: for a valid input, [right] is orthogonal to [front] and to [up]. *)
Theorem find_planes_right_orthogonal (eye target up : vec) (aspect fovy znear zfar : R) :
  valid_input target up aspect fovy ->
  let l := find_planes_locals eye target up aspect fovy znear zfar in
  dot (right l) (front l) = 0 /\ dot (right l) (up_norm l) = 0.
Proof.
  intros Hv l. split; [apply right_orth_front | apply right_orth_up].
Qed.

(** X9: for a valid input the half angles lie in (0, pi/2), and the
    horizontal one satisfies [tan(half_fov_h_rad) = tan(half_fov_rad) * aspect]. *)
Theorem find_planes_half_angles (eye target up : vec) (aspect fovy znear zfar : R) :
  valid_input target up aspect fovy ->
  let l := find_planes_locals eye target up aspect fovy znear zfar in
  0 < half_fov_rad l < PI / 2 /\ 0 < half_fov_h_rad l < PI / 2 /\
  tan (half_fov_h_rad l) = tan (half_fov_rad l) * aspect.
Proof.
  intros Hv l.
  destruct (half_fov_bounds_v eye target up aspect fovy znear zfar Hv) as [H1 H2].
  split; [exact H1 | split; [exact H2 |]].
  apply tan_atan.
Qed.

(** X10: for a valid input the top and bottom normals are orthogonal to
    [right], and the left and right normals to [up]. *)
Theorem find_planes_normals_in_planes (eye target up : vec) (aspect fovy znear zfar : R) :
  valid_input target up aspect fovy ->
  let l := find_planes_locals eye target up aspect fovy znear zfar in
  dot (top_normal l) (right l) = 0 /\ dot (bottom_normal l) (right l) = 0 /\
  dot (left_normal l) (up_norm l) = 0 /\ dot (right_normal l) (up_norm l) = 0.
Proof.
  intros Hv. cbv zeta.
  rewrite (top_normal_frame eye target up aspect fovy znear zfar Hv),
    (bottom_normal_frame eye target up aspect fovy znear zfar Hv).
  split; [apply dot_cross_r | split; [apply dot_cross_l |]].
  cbn [left_normal right_normal find_planes_locals].
  unfold side_normal_of, normalize. rewrite !dot_vdiv, !dot_cross_r.
  unfold Rdiv. split; ring.
Qed.

(** X11: for a valid input each normal is orthogonal to its own edge
    direction (top, bottom, left and right). *)
Theorem find_planes_normals_orthogonal_to_edges (eye target up : vec)
    (aspect fovy znear zfar : R) :
  valid_input target up aspect fovy ->
  let l := find_planes_locals eye target up aspect fovy znear zfar in
  dot (top_normal l) (top_direction_of (front l) (right l) (half_fov_rad l)) = 0 /\
  dot (bottom_normal l) (bottom_direction_of (front l) (right l) (half_fov_rad l)) = 0 /\
  dot (left_normal l) (side_direction_of (front l) (up_norm l) (half_fov_h_rad l)) = 0 /\
  dot (right_normal l)
      (side_direction_of (front l) (up_norm l) (- half_fov_h_rad l)) = 0.
Proof.
  intros Hv. cbv zeta.
  rewrite (top_normal_frame eye target up aspect fovy znear zfar Hv),
    (bottom_normal_frame eye target up aspect fovy znear zfar Hv).
  split; [apply dot_cross_l | split; [apply dot_cross_r |]].
  cbn [left_normal right_normal find_planes_locals].
  unfold side_normal_of, normalize. rewrite !dot_vdiv, !dot_cross_l.
  unfold Rdiv. split; ring.
Qed.

(** X12: for a valid input the top and bottom edge directions make the
    angle [half_fov_rad] with [front]. *)
Theorem find_planes_edge_angles (eye target up : vec) (aspect fovy znear zfar : R) :
  valid_input target up aspect fovy ->
  let l := find_planes_locals eye target up aspect fovy znear zfar in
  dot (top_direction_of (front l) (right l) (half_fov_rad l)) (front l) =
    cos (half_fov_rad l) /\
  dot (bottom_direction_of (front l) (right l) (half_fov_rad l)) (front l) =
    cos (half_fov_rad l).
Proof.
  intros Hv l. split.
  - exact (top_direction_front eye target up aspect fovy znear zfar Hv).
  - exact (bottom_direction_front eye target up aspect fovy znear zfar Hv).
Qed.

(** X13: for a valid input, in the frame [front], [right x front]: both the
    top and the bottom normal have front component [sin(half_fov_rad)];
    along [right x front] the top normal has [-cos(half_fov_rad)] and the
    bottom normal [+cos(half_fov_rad)]. *)
Theorem find_planes_top_bottom_components (eye target up : vec)
    (aspect fovy znear zfar : R) :
  valid_input target up aspect fovy ->
  let l := find_planes_locals eye target up aspect fovy znear zfar in
  dot (top_normal l) (front l) = sin (half_fov_rad l) /\
  dot (bottom_normal l) (front l) = sin (half_fov_rad l) /\
  dot (top_normal l) (cross (right l) (front l)) = - cos (half_fov_rad l) /\
  dot (bottom_normal l) (cross (right l) (front l)) = cos (half_fov_rad l).
Proof.
  intros Hv l.
  destruct (top_bottom_normal_front eye target up aspect fovy znear zfar Hv) as [H1 H2].
  destruct (top_bottom_normal_up eye target up aspect fovy znear zfar Hv) as [H3 H4].
  repeat split; assumption.
Qed.

(** X14: for a valid input the left normal has front component
    [sin(half_fov_h_rad) |front x up|] and the right normal the opposite
    [-sin(half_fov_h_rad) |front x up|], while both have the same component
    [cos(half_fov_h_rad)] along [right]. *)
Theorem find_planes_side_components (eye target up : vec)
    (aspect fovy znear zfar : R) :
  valid_input target up aspect fovy ->
  let l := find_planes_locals eye target up aspect fovy znear zfar in
  dot (left_normal l) (front l) =
    sin (half_fov_h_rad l) * norm (cross (front l) (up_norm l)) /\
  dot (right_normal l) (front l) =
    - sin (half_fov_h_rad l) * norm (cross (front l) (up_norm l)) /\
  dot (left_normal l) (right l) = cos (half_fov_h_rad l) /\
  dot (right_normal l) (right l) = cos (half_fov_h_rad l).
Proof.
  intros Hv l.
  destruct (side_normals_front eye target up aspect fovy znear zfar Hv) as [H1 H2].
  destruct (side_normals_right eye target up aspect fovy znear zfar Hv) as [H3 H4].
  repeat split; assumption.
Qed.

(** X15: for a valid input the top, bottom and left normals lean towards
    [front] (positive front component) and the right normal away from it
    (negative); the left and right normals both point towards [right]. *)
Theorem find_planes_normal_signs (eye target up : vec) (aspect fovy znear zfar : R) :
  valid_input target up aspect fovy ->
  let l := find_planes_locals eye target up aspect fovy znear zfar in
  0 < dot (top_normal l) (front l) /\ 0 < dot (bottom_normal l) (front l) /\
  0 < dot (left_normal l) (front l) /\ dot (right_normal l) (front l) < 0 /\
  0 < dot (left_normal l) (right l) /\ 0 < dot (right_normal l) (right l).
Proof.
  intros Hv l.
  destruct (half_fov_bounds_v eye target up aspect fovy znear zfar Hv) as [Hb Hh].
  destruct (top_bottom_normal_front eye target up aspect fovy znear zfar Hv) as [H1 H2].
  destruct (side_normals_front eye target up aspect fovy znear zfar Hv) as [H3 H4].
  destruct (side_normals_right eye target up aspect fovy znear zfar Hv) as [H5 H6].
  pose proof (norm_pos _ (cross_front_up_pos eye target up aspect fovy znear zfar Hv)) as Hn.
  pose proof PI_RGT_0 as Hpi.
  fold l in Hb, Hh, H1, H2, H3, H4, H5, H6, Hn.
  assert (Hsv : 0 < sin (half_fov_rad l)) by (apply sin_gt_0; lra).
  assert (Hsh : 0 < sin (half_fov_h_rad l)) by (apply sin_gt_0; lra).
  assert (Hch : 0 < cos (half_fov_h_rad l)) by (apply cos_gt_0; lra).
  rewrite H1, H2, H3, H4, H5, H6.
  repeat split; nra.
Qed.

(** C5: the rotation by a further [-pi/2] (top) or [+pi/2] (bottom) about
    [right] gives the same normal as the cross product of the edge
    direction with [right], for any orthonormal front/up/right triple. *)
Theorem normal_techniques_agree (f u r : vec) (half_fov : R) :
  orthonormal f u r ->
  top_normal_of f r half_fov =
    normalize (cross (top_direction_of f r half_fov) r) /\
  bottom_normal_of f r half_fov =
    normalize (cross r (bottom_direction_of f r half_fov)).
Proof.
  intros (Hf & Hu & Hr & Hfu & Hfr & Hur). split.
  - unfold top_normal_of. cbv zeta. rewrite rotate_minus_half_pi; auto.
    unfold top_direction_of. rewrite (rotate_axis_component r _ _ Hr), dot_comm.
    exact Hfr.
  - unfold bottom_normal_of. cbv zeta. rewrite rotate_half_pi; auto.
    unfold bottom_direction_of. rewrite (rotate_axis_component r _ _ Hr), dot_comm.
    exact Hfr.
Qed.

(** ** Independence from [znear] and [zfar] *)

(** C6: runs that differ only in [znear] and [zfar] compute the same
    locals (the four normals and the two offsets among them) and produce
    the same output and return value. *)
Theorem find_planes_near_far_independent (eye target up : vec)
    (aspect fovy znear1 zfar1 znear2 zfar2 : R) :
  find_planes_locals eye target up aspect fovy znear1 zfar1 =
    find_planes_locals eye target up aspect fovy znear2 zfar2 /\
  find_planes eye target up aspect fovy znear1 zfar1 =
    find_planes eye target up aspect fovy znear2 zfar2.
Proof. split; reflexivity. Qed.

(** ** What [find_planes] outputs *)

Lemma wireframe_length (n : vec) (d : R) : (List.length (wireframe n d) <= 1)%nat.
Proof. unfold wireframe. destruct Rlt_dec; simpl; lia. Qed.

Lemma wireframes_find_planes (eye target up : vec) (aspect fovy znear zfar : R) :
  let l := find_planes_locals eye target up aspect fovy znear zfar in
  wireframes (fst (find_planes eye target up aspect fovy znear zfar)) =
  wireframe (top_normal l) (top_d l) ++ wireframe (bottom_normal l) (bottom_d l).
Proof.
  intros l. unfold find_planes. cbn [fst]. fold l.
  unfold wireframes. rewrite !filter_app. cbn [filter].
  unfold wireframe. do 2 destruct Rlt_dec; reflexivity.
Qed.

(** C1 (counterexample): on the arguments of [__main__], [find_planes]
    returns [None], and at most two planes (top and bottom) leave it. *)
Lemma find_planes_main_returns_none :
  snd (find_planes main_eye main_target main_up main_aspect 90 (1 / 10) 100)
    = PyNone /\
  (List.length (wireframes
    (fst (find_planes main_eye main_target main_up main_aspect 90 (1 / 10) 100)))
    <= 2)%nat.
Proof.
  split; [reflexivity |].
  rewrite wireframes_find_planes, length_app.
  pose proof (wireframe_length (top_normal (find_planes_locals main_eye main_target
    main_up main_aspect 90 (1 / 10) 100)) (top_d (find_planes_locals main_eye
    main_target main_up main_aspect 90 (1 / 10) 100))).
  pose proof (wireframe_length (bottom_normal (find_planes_locals main_eye main_target
    main_up main_aspect 90 (1 / 10) 100)) (bottom_d (find_planes_locals main_eye
    main_target main_up main_aspect 90 (1 / 10) 100))).
  lia.
Qed.

Lemma in_wireframe_iff (n : vec) (d : R) (n' : vec) (d' : R) :
  In (EvWireframe n' d') (wireframe n d) <->
  n' = n /\ d' = d /\ 1 / 1000000 < Rabs (vz n).
Proof.
  unfold wireframe. destruct Rlt_dec as [Hc | Hc]; simpl; split.
  - intros [H | []]. inversion H; subst. repeat split. exact Hc.
  - intros (-> & -> & _). left. reflexivity.
  - contradiction.
  - intros (_ & _ & H). contradiction.
Qed.

Lemma in_wireframes (t : list event) (n : vec) (d : R) :
  In (EvWireframe n d) t <-> In (EvWireframe n d) (wireframes t).
Proof.
  unfold wireframes. rewrite filter_In. tauto.
Qed.

(** C1 (amended): for a valid input [find_planes] returns [None]. Of the
    four normals it computes, all of unit length, it forms a plane
    [(n, dot(n, eye))] only for the top and bottom ones: the planes it draws
    are exactly those two whose normal has [|n_z| > 1e-6], so at most two,
    and every drawn plane has a unit normal and passes through the eye. *)
Theorem find_planes_planes_through_eye (eye target up : vec)
    (aspect fovy znear zfar : R) :
  valid_input target up aspect fovy ->
  let l := find_planes_locals eye target up aspect fovy znear zfar in
  let out := find_planes eye target up aspect fovy znear zfar in
  snd out = PyNone /\
  norm (top_normal l) = 1 /\ norm (bottom_normal l) = 1 /\
  norm (left_normal l) = 1 /\ norm (right_normal l) = 1 /\
  (List.length (wireframes (fst out)) <= 2)%nat /\
  (forall n d, In (EvWireframe n d) (fst out) <->
     ((n = top_normal l /\ d = dot (top_normal l) eye) \/
      (n = bottom_normal l /\ d = dot (bottom_normal l) eye)) /\
     1 / 1000000 < Rabs (vz n)) /\
  (forall n d, In (EvWireframe n d) (fst out) -> norm n = 1 /\ dot n eye - d = 0).
Proof.
  intros Hv l out.
  assert (Ht : norm (top_normal l) = 1)
    by exact (norm_unit _ (top_normal_unit eye target up aspect fovy znear zfar Hv)).
  assert (Hb : norm (bottom_normal l) = 1)
    by exact (norm_unit _ (bottom_normal_unit eye target up aspect fovy znear zfar Hv)).
  assert (Hw : forall n d, In (EvWireframe n d) (fst out) <->
     ((n = top_normal l /\ d = dot (top_normal l) eye) \/
      (n = bottom_normal l /\ d = dot (bottom_normal l) eye)) /\
     1 / 1000000 < Rabs (vz n)).
  { intros n d. unfold out. rewrite in_wireframes, wireframes_find_planes.
    fold l. rewrite in_app_iff, !in_wireframe_iff.
    change (top_d l) with (dot (top_normal l) eye).
    change (bottom_d l) with (dot (bottom_normal l) eye).
    split.
    - intros [(-> & -> & Hz) | (-> & -> & Hz)].
      + split; [left; split; reflexivity | exact Hz].
      + split; [right; split; reflexivity | exact Hz].
    - intros [[(-> & ->) | (-> & ->)] Hz].
      + left. repeat split. exact Hz.
      + right. repeat split. exact Hz. }
  split; [reflexivity |].
  split; [exact Ht |]. split; [exact Hb |].
  split; [exact (norm_unit _ (left_normal_unit eye target up aspect fovy znear zfar Hv)) |].
  split; [exact (norm_unit _ (right_normal_unit eye target up aspect fovy znear zfar Hv)) |].
  split.
  - unfold out. rewrite wireframes_find_planes, length_app.
    pose proof (wireframe_length (top_normal l) (top_d l)).
    pose proof (wireframe_length (bottom_normal l) (bottom_d l)).
    fold l. lia.
  - split; [exact Hw |].
    intros n d Hin. apply Hw in Hin as [[(-> & ->) | (-> & ->)] _];
      (split; [assumption | apply Rminus_diag]).
Qed.

End FrustumFacts.

(** * Degenerate input *)
Module Degenerate.
Import F64 F64Facts.

(** C2 (amended): [find_planes] has no validation and no error path. With
    [view_direction = (0,0,0)] the normalisation divides [0] by [0], so
    [front] is NaN in every component, and so is [right], whatever [eye]
    and [up]; in the model of the whole function the call still returns
    [None]. *)
Theorem zero_view_direction_propagates_nan (eye up : vec3 float) :
  all_nan (b_front (build_basis eye zero_vec up)) = true /\
  all_nan (b_right (build_basis eye zero_vec up)) = true /\
  (forall (eye' up' : Frustum.vec) (aspect fovy znear zfar : R),
     snd (Frustum.find_planes eye' Frustum.vzero up' aspect fovy znear zfar)
       = Frustum.PyNone).
Proof.
  split; [| split].
  - exact normalize_zero_nan.
  - apply normalize_nan, cross_nan_l, normalize_zero_nan.
  - reflexivity.
Qed.

End Degenerate.

(** * Witnesses: the hypotheses of the theorems hold on concrete inputs *)
Module Witnesses.
Import Frustum FrustumFacts.
Open Scope R_scope.

Ltac valid_by :=
  unfold valid_input; repeat split; try lra;
  cbn; let Hq := fresh "Hq" in intro Hq; injection Hq; intros; lra.

Lemma from_axis_angle_unit_witness :
  dot ex ex = 1 /\
  (let q := from_axis_angle ex (PI / 3) in
   qx q * qx q + qy q * qy q + qz q * qz q + qw q * qw q = 1).
Proof.
  split; [cbn; lra | apply (from_axis_angle_unit ex (PI / 3)); cbn; lra].
Defined.

Lemma rotate_preserves_length_witness :
  dot ex ex = 1 /\
  norm (mul_quat_vec (from_axis_angle ex (PI / 3)) ey) = norm ey.
Proof.
  split; [cbn; lra | apply (rotate_preserves_length ex ey (PI / 3)); cbn; lra].
Defined.

Lemma rotate_inverse_witness :
  dot ez ez = 1 /\
  mul_quat_vec (from_axis_angle ez (- (PI / 4)))
    (mul_quat_vec (from_axis_angle ez (PI / 4)) ex) = ex.
Proof.
  split; [cbn; lra | apply (rotate_inverse ez ex (PI / 4)); cbn; lra].
Defined.

Lemma normal_techniques_agree_witness :
  orthonormal ex ey ez /\
  top_normal_of ex ez (PI / 4) =
    normalize (cross (top_direction_of ex ez (PI / 4)) ez) /\
  bottom_normal_of ex ez (PI / 4) =
    normalize (cross ez (bottom_direction_of ex ez (PI / 4))).
Proof.
  assert (H : orthonormal ex ey ez) by (unfold orthonormal; cbn; repeat split; lra).
  split; [exact H | apply (normal_techniques_agree ex ey ez (PI / 4) H)].
Defined.

Lemma find_planes_unit_lengths_witness :
  valid_input back ey 1 90 /\
  (let l := find_planes_locals ex back ey 1 90 (1 / 10) 100 in
   norm (front l) = 1 /\ norm (up_norm l) = 1 /\ norm (right l) = 1 /\
   norm (top_normal l) = 1 /\ norm (bottom_normal l) = 1 /\
   norm (left_normal l) = 1 /\ norm (right_normal l) = 1).
Proof.
  assert (H : valid_input back ey 1 90) by valid_by.
  split; [exact H | apply (find_planes_unit_lengths ex back ey 1 90 (1 / 10) 100 H)].
Defined.

Lemma find_planes_right_orthogonal_witness :
  valid_input back ey 1 90 /\
  (let l := find_planes_locals ex back ey 1 90 (1 / 10) 100 in
   dot (right l) (front l) = 0 /\ dot (right l) (up_norm l) = 0).
Proof.
  assert (H : valid_input back ey 1 90) by valid_by.
  split; [exact H | apply (find_planes_right_orthogonal ex back ey 1 90 (1 / 10) 100 H)].
Defined.

Lemma rotate_is_rodrigues_witness :
  dot ez ez = 1 /\
  mul_quat_vec (from_axis_angle ez (PI / 3)) ex =
    rodrigues_form ez (cos (PI / 3)) (sin (PI / 3)) ex.
Proof.
  split; [cbn; lra | apply (rotate_is_rodrigues ez ex (PI / 3)); cbn; lra].
Defined.

Lemma rotate_compose_witness :
  dot ez ez = 1 /\
  mul_quat_vec (from_axis_angle ez (PI / 6))
    (mul_quat_vec (from_axis_angle ez (PI / 3)) ex) =
  mul_quat_vec (from_axis_angle ez (PI / 3 + PI / 6)) ex.
Proof.
  split; [cbn; lra | apply (rotate_compose ez ex (PI / 3) (PI / 6)); cbn; lra].
Defined.

Lemma rotate_preserves_dot_witness :
  dot ex ex = 1 /\
  dot (mul_quat_vec (from_axis_angle ex (PI / 5)) ey)
      (mul_quat_vec (from_axis_angle ex (PI / 5)) ez) = dot ey ez.
Proof.
  split; [cbn; lra | apply (rotate_preserves_dot ex ey ez (PI / 5)); cbn; lra].
Defined.

Lemma find_planes_half_angles_witness :
  valid_input back ey 1 90 /\
  (let l := find_planes_locals ex back ey 1 90 (1 / 10) 100 in
   0 < half_fov_rad l < PI / 2 /\ 0 < half_fov_h_rad l < PI / 2 /\
   tan (half_fov_h_rad l) = tan (half_fov_rad l) * 1).
Proof.
  assert (H : valid_input back ey 1 90) by valid_by.
  split; [exact H | apply (find_planes_half_angles ex back ey 1 90 (1 / 10) 100 H)].
Defined.

Lemma find_planes_normals_in_planes_witness :
  valid_input back ey 1 90 /\
  (let l := find_planes_locals ex back ey 1 90 (1 / 10) 100 in
   dot (top_normal l) (right l) = 0 /\ dot (bottom_normal l) (right l) = 0 /\
   dot (left_normal l) (up_norm l) = 0 /\ dot (right_normal l) (up_norm l) = 0).
Proof.
  assert (H : valid_input back ey 1 90) by valid_by.
  split; [exact H | apply (find_planes_normals_in_planes ex back ey 1 90 (1 / 10) 100 H)].
Defined.

Lemma find_planes_normals_orthogonal_to_edges_witness :
  valid_input back ey 1 90 /\
  (let l := find_planes_locals ex back ey 1 90 (1 / 10) 100 in
   dot (top_normal l) (top_direction_of (front l) (right l) (half_fov_rad l)) = 0 /\
   dot (bottom_normal l) (bottom_direction_of (front l) (right l) (half_fov_rad l)) = 0 /\
   dot (left_normal l) (side_direction_of (front l) (up_norm l) (half_fov_h_rad l)) = 0 /\
   dot (right_normal l)
       (side_direction_of (front l) (up_norm l) (- half_fov_h_rad l)) = 0).
Proof.
  assert (H : valid_input back ey 1 90) by valid_by.
  split; [exact H | apply (find_planes_normals_orthogonal_to_edges ex back ey 1 90 (1 / 10) 100 H)].
Defined.

Lemma find_planes_edge_angles_witness :
  valid_input back ey 1 90 /\
  (let l := find_planes_locals ex back ey 1 90 (1 / 10) 100 in
   dot (top_direction_of (front l) (right l) (half_fov_rad l)) (front l) =
     cos (half_fov_rad l) /\
   dot (bottom_direction_of (front l) (right l) (half_fov_rad l)) (front l) =
     cos (half_fov_rad l)).
Proof.
  assert (H : valid_input back ey 1 90) by valid_by.
  split; [exact H | apply (find_planes_edge_angles ex back ey 1 90 (1 / 10) 100 H)].
Defined.

Lemma find_planes_top_bottom_components_witness :
  valid_input back ey 1 90 /\
  (let l := find_planes_locals ex back ey 1 90 (1 / 10) 100 in
   dot (top_normal l) (front l) = sin (half_fov_rad l) /\
   dot (bottom_normal l) (front l) = sin (half_fov_rad l) /\
   dot (top_normal l) (cross (right l) (front l)) = - cos (half_fov_rad l) /\
   dot (bottom_normal l) (cross (right l) (front l)) = cos (half_fov_rad l)).
Proof.
  assert (H : valid_input back ey 1 90) by valid_by.
  split; [exact H | apply (find_planes_top_bottom_components ex back ey 1 90 (1 / 10) 100 H)].
Defined.

Lemma find_planes_side_components_witness :
  valid_input back ey 1 90 /\
  (let l := find_planes_locals ex back ey 1 90 (1 / 10) 100 in
   dot (left_normal l) (front l) =
     sin (half_fov_h_rad l) * norm (cross (front l) (up_norm l)) /\
   dot (right_normal l) (front l) =
     - sin (half_fov_h_rad l) * norm (cross (front l) (up_norm l)) /\
   dot (left_normal l) (right l) = cos (half_fov_h_rad l) /\
   dot (right_normal l) (right l) = cos (half_fov_h_rad l)).
Proof.
  assert (H : valid_input back ey 1 90) by valid_by.
  split; [exact H | apply (find_planes_side_components ex back ey 1 90 (1 / 10) 100 H)].
Defined.

Lemma find_planes_normal_signs_witness :
  valid_input back ey 1 90 /\
  (let l := find_planes_locals ex back ey 1 90 (1 / 10) 100 in
   0 < dot (top_normal l) (front l) /\ 0 < dot (bottom_normal l) (front l) /\
   0 < dot (left_normal l) (front l) /\ dot (right_normal l) (front l) < 0 /\
   0 < dot (left_normal l) (right l) /\ 0 < dot (right_normal l) (right l)).
Proof.
  assert (H : valid_input back ey 1 90) by valid_by.
  split; [exact H | apply (find_planes_normal_signs ex back ey 1 90 (1 / 10) 100 H)].
Defined.

Lemma find_planes_planes_through_eye_witness :
  valid_input back ey 1 90 /\
  (let l := find_planes_locals ex back ey 1 90 (1 / 10) 100 in
   let out := find_planes ex back ey 1 90 (1 / 10) 100 in
   snd out = PyNone /\
   norm (top_normal l) = 1 /\ norm (bottom_normal l) = 1 /\
   norm (left_normal l) = 1 /\ norm (right_normal l) = 1 /\
   (List.length (wireframes (fst out)) <= 2)%nat /\
   (forall n d, In (EvWireframe n d) (fst out) <->
      ((n = top_normal l /\ d = dot (top_normal l) ex) \/
       (n = bottom_normal l /\ d = dot (bottom_normal l) ex)) /\
      1 / 1000000 < Rabs (vz n)) /\
   (forall n d, In (EvWireframe n d) (fst out) -> norm n = 1 /\ dot n ex - d = 0)).
Proof.
  assert (H : valid_input back ey 1 90) by valid_by.
  split; [exact H | apply (find_planes_planes_through_eye ex back ey 1 90 (1 / 10) 100 H)].
Defined.

End Witnesses.
